(** * data_import.py: CSV import of retail transactions into MySQL

    A shallow embedding of [src/data_import.py] and the verification of its
    specification.

    Python values are embedded as follows.
    - [str] is [string]; a character stands for the code point of the same
      number, so the embedding covers the texts whose code points are below
      256.  The classification of characters ([isspace], [lower], digits)
      is the one of Python on that range.
    - [float] is IEEE 754 binary64, as [spec_float] with precision 53 and
      maximal exponent 1024; every decimal literal is rounded once, to
      nearest even, as [float()] does.
    - [int] is [Z].
    - a dictionary with [str] keys is a [gmap string _].
    - an exception is a value of [exn]; code that may raise lives in the
      monads [res] (no state) and [M] (the state of a run). *)

From Stdlib Require Import ZArith NArith Ascii String List Lia Bool.
From Stdlib Require Import DecimalString.
From Stdlib Require Import Floats.SpecFloat.
From stdpp Require Import base option list gmap strings.

Local Open Scope Z_scope.

(** ** Characters and text *)

Module Text.

Definition code (c : ascii) : N := N_of_ascii c.

Definition in_range (lo hi : N) (c : ascii) : bool :=
  ((lo <=? code c) && (code c <=? hi))%N.

(** [c.isspace()] for a code point below 256. *)
Definition isspace (c : ascii) : bool :=
  in_range 9 13 c || in_range 28 32 c || (code c =? 133)%N || (code c =? 160)%N.

(** [c.isdigit()] restricted to decimal digits, i.e. [\d] below 256. *)
Definition isdigit (c : ascii) : bool := in_range 48 57 c.

Definition digit_val (c : ascii) : Z := Z.of_N (code c) - 48.

(** [c.lower()] for a code point below 256: the letters A-Z and the
    upper-case letters of Latin-1 (all of 192..222 but the sign at 215). *)
Definition lower_char (c : ascii) : ascii :=
  if in_range 65 90 c || (in_range 192 222 c && negb (code c =? 215)%N)
  then ascii_of_N (code c + 32)
  else c.

Fixpoint lower (s : string) : string :=
  match s with
  | EmptyString => EmptyString
  | String c s' => String (lower_char c) (lower s')
  end.

Fixpoint lstrip (s : string) : string :=
  match s with
  | EmptyString => EmptyString
  | String c s' => if isspace c then lstrip s' else s
  end.

Fixpoint rstrip (s : string) : string :=
  match s with
  | EmptyString => EmptyString
  | String c s' =>
      match rstrip s' with
      | EmptyString => if isspace c then EmptyString else String c EmptyString
      | r => String c r
      end
  end.

(** [s.strip()] *)
Definition strip (s : string) : string := rstrip (lstrip s).

Definition is_empty (s : string) : bool :=
  match s with EmptyString => true | _ => false end.

Fixpoint all_chars (p : ascii -> bool) (s : string) : bool :=
  match s with
  | EmptyString => true
  | String c s' => p c && all_chars p s'
  end.

(** [str(n)] for an [int]. *)
Definition str_of_Z (z : Z) : string := NilZero.string_of_int (Z.to_int z).

(** The value of a run of decimal digits, most significant first. *)
Fixpoint digits_val (acc : Z) (s : string) : Z :=
  match s with
  | EmptyString => acc
  | String c s' => digits_val (10 * acc + digit_val c) s'
  end.

End Text.

(** ** Exceptions and the result monad *)

Inductive exn_class :=
  | ValueError | TypeError | AttributeError | OverflowError
  | MySQLError          (* mysql.connector.Error *)
  | FileNotFoundError.

(** An exception object: its class and [str(e)]. *)
Record exn := Exn { exn_cls : exn_class; exn_msg : string }.

Inductive res (A : Type) :=
  | Ok (a : A)
  | Raise (e : exn).
Arguments Ok {A} a.
Arguments Raise {A} e.

Definition res_bind {A B} (r : res A) (k : A -> res B) : res B :=
  match r with
  | Ok a => k a
  | Raise e => Raise e
  end.

(** [try: body  except: handler] with a bare [except]. *)
Definition try_except {A} (body : res A) (handler : res A) : res A :=
  match body with
  | Ok a => Ok a
  | Raise _ => handler
  end.

#[global] Instance res_mbind : MBind res := fun A B k r => res_bind r k.
#[global] Instance res_mret : MRet res := fun A a => Ok a.

Definition raise {A} (c : exn_class) (m : string) : res A := Raise (Exn c m).

(** ** binary64 and the conversions [float()] and [int()] *)

Module Float.

Definition float := spec_float.
Definition prec : Z := 53.
Definition emax : Z := 1024.

(** The float nearest to a positive integer [m] (ties to even). *)
Definition of_pos (neg : bool) (m : positive) : float :=
  binary_round prec emax neg m 0.

Definition of_Z (z : Z) : float :=
  match z with
  | Z0 => S754_zero false
  | Zpos m => of_pos false m
  | Zneg m => of_pos true m
  end.

(** The float nearest to the quotient [n / d] of two positive integers:
    one division with the position of the remainder, then one rounding. *)
Definition of_ratio (neg : bool) (n d : Z) : float :=
  let '(q, e, l) := SFdiv_core_binary prec emax n 0 d 0 in
  binary_round_aux prec emax neg q e l.

(** The float nearest to [m * 10^e10], for [0 <= m]. *)
Definition of_decimal (neg : bool) (m e10 : Z) : float :=
  match m with
  | Zpos p =>
      if 0 <=? e10 then
        match m * 10 ^ e10 with
        | Zpos q => of_pos neg q
        | _ => S754_zero neg
        end
      else of_ratio neg m (10 ^ (- e10))
  | _ => S754_zero neg
  end.

Definition zero : float := S754_zero false.
Definition leb (x y : float) : bool := SFleb x y.
Definition ltb (x y : float) : bool := SFltb x y.
Definition is_nan (x : float) : bool :=
  match x with S754_nan => true | _ => false end.

(** [int(x)]: truncation towards zero. *)
Definition trunc (x : float) : res Z :=
  match x with
  | S754_zero _ => Ok 0
  | S754_finite s m e =>
      let a := if 0 <=? e then Z.pos m * 2 ^ e else Z.pos m / 2 ^ (- e) in
      Ok (if s then - a else a)
  | S754_infinity _ => raise OverflowError "cannot convert float infinity to integer"
  | S754_nan => raise ValueError "cannot convert float NaN to integer"
  end.

(** *** The grammar of [float(str)] *)

Fixpoint span (p : ascii -> bool) (s : string) : string * string :=
  match s with
  | EmptyString => (EmptyString, EmptyString)
  | String c s' =>
      if p c then let '(a, b) := span p s' in (String c a, b)
      else (EmptyString, s)
  end.

(** Underscores are dropped; each must stand between two digits. *)
Fixpoint drop_underscores (prev : ascii) (s : string) : option string :=
  match s with
  | EmptyString => if Ascii.eqb prev "_" then None else Some EmptyString
  | String c s' =>
      if Ascii.eqb c "_" then
        if Text.isdigit prev then drop_underscores c s' else None
      else if Ascii.eqb prev "_" && negb (Text.isdigit c) then None
      else option_map (String c) (drop_underscores c s')
  end.

Definition parse_sign (s : string) : bool * string :=
  match s with
  | String "-" s' => (true, s')
  | String "+" s' => (false, s')
  | _ => (false, s)
  end.

(** [[eE] [+-]? digits+]; without a digit nothing is consumed. *)
Definition parse_exponent (s : string) : Z * string :=
  match s with
  | String c s1 =>
      if Ascii.eqb (Text.lower_char c) "e" then
        let '(neg, s2) := parse_sign s1 in
        let '(ds, s3) := span Text.isdigit s2 in
        if Text.is_empty ds then (0, s)
        else (let v := Text.digits_val 0 ds in if neg then - v else v, s3)
      else (0, s)
  | EmptyString => (0, s)
  end.

(** [digits* [. digits*] [exponent]] with a digit in the mantissa:
    the mantissa, the decimal exponent, and the text left over. *)
Definition parse_number (s : string) : option (Z * Z * string) :=
  let '(ip, r1) := span Text.isdigit s in
  let '(fp, r2) :=
    match r1 with
    | String "." r => span Text.isdigit r
    | _ => (EmptyString, r1)
    end in
  if Text.is_empty ip && Text.is_empty fp then None
  else
    let '(e, r3) := parse_exponent r2 in
    Some (Text.digits_val 0 (ip ++ fp), e - Z.of_nat (String.length fp), r3).

Fixpoint prefix_nocase (t s : string) : option string :=
  match t, s with
  | EmptyString, _ => Some s
  | String a t', String c s' =>
      if Ascii.eqb (Text.lower_char c) a then prefix_nocase t' s' else None
  | String _ _, EmptyString => None
  end.

(** [inf], [infinity] or [nan], in any case. *)
Definition parse_inf_or_nan (neg : bool) (s : string) : option (float * string) :=
  match prefix_nocase "inf" s with
  | Some r =>
      match prefix_nocase "inity" r with
      | Some r' => Some (S754_infinity neg, r')
      | None => Some (S754_infinity neg, r)
      end
  | None =>
      match prefix_nocase "nan" s with
      | Some r => Some (S754_nan, r)
      | None => None
      end
  end.

Definition bad_literal {A} : res A :=
  raise ValueError "could not convert string to float".

(** [float(s)] for a [str]. *)
Definition of_string (s : string) : res float :=
  match drop_underscores "000" s with
  | None => bad_literal
  | Some s1 =>
      let '(neg, body) := parse_sign (Text.strip s1) in
      match parse_number body with
      | Some (m, e, EmptyString) => Ok (of_decimal neg m e)
      | Some (_, _, String _ _) => bad_literal
      | None =>
          match parse_inf_or_nan neg body with
          | Some (x, EmptyString) => Ok x
          | _ => bad_literal
          end
      end
  end.

(** The literal [0.01] of the source. *)
Definition c_0_01 : float := S754_finite false 5764607523034235 (-59).

End Float.

(** ** Python values met by the script *)

(** What a cell of a CSV row, or the default of [row.get], can be. *)
Inductive pyval :=
  | PyNone
  | PyStr (s : string)
  | PyInt (z : Z).

(** [str(v)] *)
Definition py_str (v : pyval) : string :=
  match v with
  | PyNone => "None"
  | PyStr s => s
  | PyInt z => Text.str_of_Z z
  end.

(** The truth value of [v]. *)
Definition truthy (v : pyval) : bool :=
  match v with
  | PyNone => false
  | PyStr s => negb (Text.is_empty s)
  | PyInt z => negb (z =? 0)
  end.

(** [a or b] *)
Definition py_or (a b : pyval) : pyval := if truthy a then a else b.

(** [v.strip()]: only a [str] has the method. *)
Definition py_strip (v : pyval) : res string :=
  match v with
  | PyStr s => Ok (Text.strip s)
  | _ => raise AttributeError "object has no attribute 'strip'"
  end.

(** [float(v)] *)
Definition py_float (v : pyval) : res Float.float :=
  match v with
  | PyStr s => Float.of_string s
  | PyInt z =>
      match Float.of_Z z with
      | S754_infinity _ => raise OverflowError "int too large to convert to float"
      | x => Ok x
      end
  | PyNone => raise TypeError "float() argument must be a string or a real number"
  end.

(** [int(float(v))] *)
Definition py_int_float (v : pyval) : res Z :=
  x ← py_float v;
  Float.trunc x.

(** [int(s)] for a [str]: surrounding blanks, a sign, decimal digits. *)
Definition py_int_of_str (s : string) : res Z :=
  let '(neg, ds) := Float.parse_sign (Text.strip s) in
  if negb (Text.is_empty ds) && Text.all_chars Text.isdigit ds
  then Ok (let v := Text.digits_val 0 ds in if neg then - v else v)
  else raise ValueError "invalid literal for int() with base 10".

(** ** [datetime] and [datetime.strptime] *)

Module Datetime.

Record datetime := mk_datetime {
  year : Z; month : Z; day : Z; hour : Z; minute : Z; second : Z
}.

Definition is_leap (y : Z) : bool :=
  (y mod 4 =? 0) && (negb (y mod 100 =? 0) || (y mod 400 =? 0)).

Definition days_in_month (y m : Z) : Z :=
  if m =? 2 then (if is_leap y then 29 else 28)
  else if (m =? 4) || (m =? 6) || (m =? 9) || (m =? 11) then 30
  else 31.

Definition between (lo x hi : Z) : bool := (lo <=? x) && (x <=? hi).

(** The constructor [datetime(y, m, d, H, M, S)] with its range checks. *)
Definition make (y m d H M S : Z) : res datetime :=
  if between 1 y 9999 && between 1 m 12 && between 1 d (days_in_month y m)
     && between 0 H 23 && between 0 M 59 && between 0 S 59
  then Ok (mk_datetime y m d H M S)
  else raise ValueError "date or time value out of range".

(** A character class of the regular expressions of [_strptime]. *)
Definition cls := ascii -> bool.
Definition one (a : ascii) : cls := Ascii.eqb a.
Definition rng (a b : ascii) : cls :=
  fun c => Text.in_range (Text.code a) (Text.code b) c.
Definition dig : cls := Text.isdigit.

(** The pattern of a directive: alternatives, tried from the left, each a
    sequence of classes. *)
Definition directive (d : ascii) : option (list (list cls)) :=
  match d with
  | "Y"%char => Some [[dig; dig; dig; dig]]
  | "m"%char => Some [[one "1"; rng "0" "2"]; [one "0"; rng "1" "9"]; [rng "1" "9"]]
  | "d"%char => Some [[one "3"; rng "0" "1"]; [rng "1" "2"; dig]; [one "0"; rng "1" "9"];
                      [rng "1" "9"]; [one " "; rng "1" "9"]]
  | "H"%char => Some [[one "2"; rng "0" "3"]; [rng "0" "1"; dig]; [dig]]
  | "M"%char => Some [[rng "0" "5"; dig]; [dig]]
  | "S"%char => Some [[one "6"; rng "0" "1"]; [rng "0" "5"; dig]; [dig]]
  | _ => None
  end.

(** A compiled format: a named group, [\s+], or a literal character. *)
Inductive item :=
  | Group (d : ascii) (alts : list (list cls))
  | Spaces
  | Lit (c : ascii).

(** The formats of the script hold no letter outside a directive, so the
    case-insensitive flag of the compiled pattern changes nothing. *)
Fixpoint compile (fmt : string) : res (list item) :=
  match fmt with
  | EmptyString => Ok []
  | String "%" (String d fmt') =>
      match directive d with
      | Some alts => its ← compile fmt'; Ok (Group d alts :: its)
      | None => raise ValueError "bad directive in format"
      end
  | String "%" EmptyString => raise ValueError "stray % in format"
  | String c fmt' =>
      its ← compile fmt';
      if Text.isspace c then
        match its with
        | Spaces :: _ => Ok its
        | _ => Ok (Spaces :: its)
        end
      else Ok (Lit c :: its)
  end.

(** One alternative against the head of [s]: the text matched and the rest. *)
Fixpoint match_classes (cs : list cls) (s : string) : option (string * string) :=
  match cs with
  | [] => Some (EmptyString, s)
  | p :: cs' =>
      match s with
      | String c s' =>
          if p c then
            match match_classes cs' s' with
            | Some (t, r) => Some (String c t, r)
            | None => None
            end
          else None
      | EmptyString => None
      end
  end.

(** The ways [\s+] matches at the head of [s], the longest first. *)
Fixpoint after_spaces (s : string) : list string :=
  match s with
  | String c s' => if Text.isspace c then after_spaces s' ++ [s'] else []
  | EmptyString => []
  end.

Definition captures := list (ascii * string).

(** All the ways the items match at the head of [s], in the order in which
    a backtracking matcher finds them. *)
Fixpoint match_items (its : list item) (s : string) : list (captures * string) :=
  match its with
  | [] => [([], s)]
  | Lit c :: its' =>
      match s with
      | String c' s' => if Ascii.eqb c c' then match_items its' s' else []
      | EmptyString => []
      end
  | Spaces :: its' => flat_map (match_items its') (after_spaces s)
  | Group d alts :: its' =>
      flat_map (fun a =>
        match match_classes a s with
        | Some (t, r) => map (fun '(caps, r') => ((d, t) :: caps, r')) (match_items its' r)
        | None => []
        end) alts
  end.

Fixpoint group (d : ascii) (caps : captures) : option string :=
  match caps with
  | [] => None
  | (d', t) :: caps' => if Ascii.eqb d d' then Some t else group d caps'
  end.

(** [int(found_dict[d])], or the default when the format lacks [d]. *)
Definition field (d : ascii) (default : Z) (caps : captures) : res Z :=
  match group d caps with
  | Some t => py_int_of_str t
  | None => Ok default
  end.

(** [datetime.strptime(data_string, fmt)] *)
Definition strptime (data_string fmt : string) : res datetime :=
  its ← compile fmt;
  match match_items its data_string with
  | [] => raise ValueError "time data does not match format"
  | (caps, String _ _) :: _ => raise ValueError "unconverted data remains"
  | (caps, EmptyString) :: _ =>
      y ← field "Y" 1900 caps;
      m ← field "m" 1 caps;
      d ← field "d" 1 caps;
      H ← field "H" 0 caps;
      M ← field "M" 0 caps;
      S ← field "S" 0 caps;
      make y m d H M S
  end.

End Datetime.

Abbreviation datetime := Datetime.datetime.

(** ** [parse_date] and [clean_value] *)

Definition formats : list string :=
  [ "%Y-%m-%d %H:%M:%S";
    "%m/%d/%Y %H:%M";
    "%d/%m/%Y %H:%M" ].

Definition is_ValueError (e : exn) : bool :=
  match exn_cls e with ValueError => true | _ => false end.

(** The [for fmt in formats] loop: the first format that parses wins, a
    [ValueError] moves on to the next format, any other exception leaves
    the loop. *)
Fixpoint try_formats (date_str : pyval) (fmts : list string) : res (option datetime) :=
  match fmts with
  | [] => Ok None
  | fmt :: fmts' =>
      match (s ← py_strip date_str; Datetime.strptime s fmt) with
      | Ok d => Ok (Some d)
      | Raise e => if is_ValueError e then try_formats date_str fmts' else Raise e
      end
  end.

Definition parse_date (date_str : pyval) : option datetime :=
  match try_formats date_str formats with
  | Ok r => r
  | Raise _ => None
  end.

Definition clean_value (value : pyval) : option string :=
  match value with
  | PyNone => None
  | _ =>
      let value := Text.strip (py_str value) in
      if Text.is_empty value || String.eqb (Text.lower value) "nan"
      then None
      else Some value
  end.

(** ** The row transformer (the body of the loop up to [batch.append]) *)

(** One row of [raw_transactions], in the order of the INSERT statement. *)
Record record := mk_record {
  invoice : option string;
  stock_code : option string;
  description : option string;
  quantity : Z;
  invoice_date : datetime;
  price : Float.float;
  customer_id : option string;
  country : option string
}.

(** [row.get(key, default)] *)
Definition row_get (row : gmap string pyval) (key : string) (dflt : pyval) : pyval :=
  default dflt (row !! key).

(** The result of [clean_value] as a Python value again. *)
Definition of_opt (o : option string) : pyval :=
  match o with
  | Some s => PyStr s
  | None => PyNone
  end.

Definition derive_quantity (row : gmap string pyval) : res Z :=
  try_except
    (py_int_float (py_or (row_get row "Quantity" (PyInt 0)) (PyInt 0)))
    (Ok 1).

Definition derive_price (row : gmap string pyval) : res Float.float :=
  try_except
    (price ← py_float (py_or (row_get row "Price" (PyInt 0)) (PyInt 0));
     if Float.leb price Float.zero then Ok Float.c_0_01 else Ok price)
    (Ok Float.c_0_01).

Definition derive_customer_id (row : gmap string pyval) : res (option string) :=
  let customer_id := clean_value (row_get row "Customer ID" (PyStr "")) in
  if truthy (of_opt customer_id) then
    try_except
      (n ← py_int_float (of_opt customer_id);
       Ok (Some (Text.str_of_Z n)))
      (Ok None)
  else Ok None.

(** [now] is what [datetime.now()] returns while the row is processed. *)
Definition transform_row (now : datetime) (row : gmap string pyval) : res record :=
  let invoice := clean_value (row_get row "Invoice" (PyStr "")) in
  let stock_code := clean_value (row_get row "StockCode" (PyStr "")) in
  let description := clean_value (row_get row "Description" (PyStr "")) in
  quantity ← derive_quantity row;
  let invoice_date :=
    match parse_date (row_get row "InvoiceDate" (PyStr "")) with
    | None => now
    | Some d => d
    end in
  price ← derive_price row;
  customer_id ← derive_customer_id row;
  let country := clean_value (row_get row "Country" (PyStr "")) in
  Ok (mk_record invoice stock_code description quantity invoice_date price
        customer_id country).

(** ** The world around the script and the state of a run *)

Definition CSV_FILE : string := "online_retail_II.csv".
Definition BATCH_SIZE : nat := 1000.
(** [DB_CONFIG['database']] *)
Definition DB_DATABASE : string := "customer_analytics".

(** What the script does to its surroundings, in the order it happens. *)
Inductive event :=
  | EPrint (line : string)
  | EPrompt (text : string)
  | EConnect
  | EOpen (file : string)
  | EExecutemany (rows : list record)
  | ECommit
  | ECount
  | EClose.

(** The table as the connection sees it: committed rows, and the rows of
    the open transaction.  [st_calls] counts the statements sent so far. *)
Record storage := mk_storage {
  st_calls : nat;
  st_pending : list record;
  st_table : list record
}.

(** Everything the script does not decide itself.  The rows of the file are
    given as a whole: reading them is taken not to raise. *)
Record world := mk_world {
  w_exists : bool;                       (* os.path.exists(CSV_FILE) *)
  w_response : string;                   (* the answer typed at the prompt *)
  w_connect : option string;             (* the error of connect(), if it fails *)
  w_csv : option (list (gmap string pyval)); (* the rows; None: no such file *)
  w_fault : nat -> option string;        (* the error of the n-th statement, if it fails *)
  w_clock : nat -> datetime;             (* datetime.now() during row n *)
  w_table : list record                  (* raw_transactions before the run *)
}.

Record state := mk_state {
  batch : list record;
  row_count : nat;
  error_count : nat;
  trace : list event;
  db : storage
}.

Definition M (A : Type) : Type := state -> res A * state.

#[global] Instance M_mret : MRet M := fun A a s => (Ok a, s).
#[global] Instance M_mbind : MBind M := fun A B k m s =>
  match m s with
  | (Ok a, s') => k a s'
  | (Raise e, s') => (Raise e, s')
  end.

(** [try: body  except Exception as e: handler(e)] *)
Definition catch {A} (body : M A) (handler : exn -> M A) : M A := fun s =>
  match body s with
  | (Ok a, s') => (Ok a, s')
  | (Raise e, s') => handler e s'
  end.

Definition lift {A} (r : res A) : M A := fun s => (r, s).
Definition gets {A} (f : state -> A) : M A := fun s => (Ok (f s), s).
Definition modify (f : state -> state) : M unit := fun s => (Ok tt, f s).

Definition set_batch (b : list record) (s : state) : state :=
  mk_state b (row_count s) (error_count s) (trace s) (db s).
Definition set_row_count (n : nat) (s : state) : state :=
  mk_state (batch s) n (error_count s) (trace s) (db s).
Definition set_error_count (n : nat) (s : state) : state :=
  mk_state (batch s) (row_count s) n (trace s) (db s).
Definition set_db (d : storage) (s : state) : state :=
  mk_state (batch s) (row_count s) (error_count s) (trace s) d.
Definition log (e : event) (s : state) : state :=
  mk_state (batch s) (row_count s) (error_count s) (trace s ++ [e]) (db s).

Definition emit (e : event) : M unit := modify (log e).
Definition print (line : string) : M unit := emit (EPrint line).

Definition str_of_nat (n : nat) : string := Text.str_of_Z (Z.of_nat n).
Definition newline : string := String "010" EmptyString.

Section Run.

(** [batch_size] stands for the constant [BATCH_SIZE]. *)
Variable w : world.
Variable batch_size : nat.

(** A statement sent to the server: it is logged, it raises the error the
    world has planned for it, or else it takes effect. *)
Definition statement (e : event) (effect : storage -> storage) : M unit := fun s =>
  let d := db s in
  let s1 := log e s in
  match w_fault w (st_calls d) with
  | Some m =>
      (Raise (Exn MySQLError m),
       set_db (mk_storage (S (st_calls d)) (st_pending d) (st_table d)) s1)
  | None =>
      let d' := effect d in
      (Ok tt, set_db (mk_storage (S (st_calls d)) (st_pending d') (st_table d')) s1)
  end.

(** [cursor.executemany(insert_query, rows)] *)
Definition executemany (rows : list record) : M unit :=
  statement (EExecutemany rows)
    (fun d => mk_storage (st_calls d) (st_pending d ++ rows) (st_table d)).

(** [conn.commit()] *)
Definition commit : M unit :=
  statement ECommit
    (fun d => mk_storage (st_calls d) [] (st_table d ++ st_pending d)).

(** [cursor.execute("SELECT COUNT( * ) ...")] and [cursor.fetchone()[0]] *)
Definition select_count : M nat :=
  statement ECount (fun d => d);;
  gets (fun s => length (st_table (db s) ++ st_pending (db s))).

(** [mysql.connector.connect( ** DB_CONFIG)] *)
Definition connect : M unit :=
  emit EConnect;;
  match w_connect w with
  | Some m => lift (raise MySQLError m)
  | None => mret tt
  end.

(** [open(CSV_FILE, ...)] and [csv.DictReader(file)] *)
Definition open_csv : M (list (gmap string pyval)) :=
  emit (EOpen CSV_FILE);;
  match w_csv w with
  | Some rows => mret rows
  | None => lift (raise FileNotFoundError "No such file or directory")
  end.

(** The [if len(batch) >= BATCH_SIZE] block. *)
Definition flush_full : M unit :=
  b ← gets batch;
  if (batch_size <=? length b)%nat then
    executemany b;;
    commit;;
    modify (fun s => set_row_count (row_count s + length (batch s)) s);;
    n ← gets row_count;
    print ("Imported " ++ str_of_nat n ++ " rows...");;
    modify (set_batch [])
  else mret tt.

(** The body of the inner [try], for the row at position [i]. *)
Definition row_body (i : nat) (row : gmap string pyval) : M unit :=
  r ← lift (transform_row (w_clock w i) row);
  modify (fun s => set_batch (batch s ++ [r]) s);;
  flush_full.

(** [except Exception as e] of the inner [try]. *)
Definition row_handler (e : exn) : M unit :=
  modify (fun s => set_error_count (error_count s + 1) s);;
  n ← gets error_count;
  if (n <=? 10)%nat then print ("Error processing row: " ++ exn_msg e)
  else mret tt.

Definition process_row (i : nat) (row : gmap string pyval) : M unit :=
  catch (row_body i row) row_handler.

(** [for row in reader] *)
Fixpoint loop (i : nat) (rows : list (gmap string pyval)) : M unit :=
  match rows with
  | [] => mret tt
  | row :: rows' => process_row i row;; loop (S i) rows'
  end.

(** The [if batch] block after the loop. *)
Definition flush_rest : M unit :=
  b ← gets batch;
  match b with
  | [] => mret tt
  | _ :: _ =>
      executemany b;;
      commit;;
      modify (fun s => set_row_count (row_count s + length (batch s)) s)
  end.

(** The body of the outer [try]. *)
Definition import_body : M unit :=
  connect;;
  print ("Connected to database: " ++ DB_DATABASE);;
  print ("Reading CSV file: " ++ CSV_FILE);;
  rows ← open_csv;
  loop 0 rows;;
  flush_rest;;
  print (newline ++ "Import completed!");;
  n ← gets row_count;
  print ("Total rows imported: " ++ str_of_nat n);;
  k ← gets error_count;
  print ("Errors encountered: " ++ str_of_nat k);;
  total ← select_count;
  print ("Total records in database: " ++ str_of_nat total);;
  emit EClose.

(** The three handlers of the outer [try]; each ends in [sys.exit(1)],
    whose status is the value returned. *)
Definition import_handler (e : exn) : M Z :=
  match exn_cls e with
  | MySQLError =>
      print ("Database error: " ++ exn_msg e);;
      mret 1
  | FileNotFoundError =>
      print ("Error: CSV file '" ++ CSV_FILE ++ "' not found!");;
      print "Please ensure the file is in the same directory as this script.";;
      mret 1
  | _ =>
      print ("Unexpected error: " ++ exn_msg e);;
      mret 1
  end.

(** [import_data()]: [None] when it returns, [Some n] when it leaves the
    process with [sys.exit(n)]. *)
Definition import_data_with : M (option Z) :=
  catch (import_body;; mret None) (fun e => n ← import_handler e; mret (Some n)).

Definition initial : state :=
  mk_state [] 0 0 [] (mk_storage 0 [] (w_table w)).

End Run.

Definition import_data (w : world) : M (option Z) := import_data_with w BATCH_SIZE.

(** What is left of a run: the events, the exit status of the process, and
    the table once the connection is gone (an open transaction is lost). *)
Record outcome := mk_outcome {
  o_trace : list event;
  o_status : Z;
  o_table : list record
}.

Definition banner : string :=
  "============================================================".

(** The script run as a program, with [batch_size] for [BATCH_SIZE]. *)
Definition main_with (w : world) (batch_size : nat) : M Z :=
  print banner;;
  print "Customer Analytics - CSV Data Import Script";;
  print banner;;
  print "";;
  if negb (w_exists w) then
    print ("Error: CSV file '" ++ CSV_FILE ++ "' not found!");;
    print "Please ensure the file is in the current directory.";;
    mret 1
  else
    emit (EPrompt ("Import data from '" ++ CSV_FILE ++ "'? (y/n): "));;
    if negb (String.eqb (Text.lower (w_response w)) "y") then
      print "Import cancelled.";;
      mret 0
    else
      r ← import_data_with w batch_size;
      match r with
      | Some n => mret n
      | None =>
          print (newline ++ "Next steps:");;
          print "1. Run the ETL script: SOURCE 02_etl_data_preparation.sql;";;
          print "2. Calculate RFM: CALL sp_complete_rfm_pipeline(NULL, NULL, NULL);";;
          mret 0
      end.

Definition run_with (w : world) (batch_size : nat) : outcome :=
  match main_with w batch_size (initial w) with
  | (Ok n, s) => mk_outcome (trace s) n (st_table (db s))
  | (Raise _, s) => mk_outcome (trace s) 1 (st_table (db s))
  end.

Definition run (w : world) : outcome := run_with w BATCH_SIZE.


(** * Vocabulary of the properties

    Total versions of the functions above, the events of a run read back
    as batches, and the worlds the examples run in. *)




(** The record a row gives, as a total function. *)
Definition record_of (now : datetime) (row : gmap string pyval) : record :=
  mk_record
    (clean_value (row_get row "Invoice" (PyStr "")))
    (clean_value (row_get row "StockCode" (PyStr "")))
    (clean_value (row_get row "Description" (PyStr "")))
    (match py_int_float (py_or (row_get row "Quantity" (PyInt 0)) (PyInt 0)) with
     | Ok n => n
     | Raise _ => 1
     end)
    (match parse_date (row_get row "InvoiceDate" (PyStr "")) with
     | None => now
     | Some d => d
     end)
    (match py_float (py_or (row_get row "Price" (PyInt 0)) (PyInt 0)) with
     | Ok x => if Float.leb x Float.zero then Float.c_0_01 else x
     | Raise _ => Float.c_0_01
     end)
    (match clean_value (row_get row "Customer ID" (PyStr "")) with
     | Some s =>
         match py_int_float (PyStr s) with
         | Ok n => Some (Text.str_of_Z n)
         | Raise _ => None
         end
     | None => None
     end)
    (clean_value (row_get row "Country" (PyStr ""))).

Definition a_moment : datetime := Datetime.mk_datetime 2026 11 3 9 30 0.

Definition the_example_row : gmap string pyval :=
  {[ "Invoice" := PyStr "536365"; "Quantity" := PyStr "6";
     "Price" := PyStr "2.55"; "Customer ID" := PyStr "17850.0" ]}.

(** The first format, in the order of the list, under which the text
    parses; [None] when there is none. *)
Fixpoint first_parse (s : string) (fmts : list string) : option datetime :=
  match fmts with
  | [] => None
  | fmt :: fmts' =>
      match Datetime.strptime s fmt with
      | Ok d => Some d
      | Raise _ => first_parse s fmts'
      end
  end.

(** The state after a flush that meets no error. *)
Definition flushed (s : state) : state :=
  let b := batch s in
  let n := (row_count s + length b)%nat in
  mk_state [] n (error_count s)
    (trace s ++ [EExecutemany b; ECommit;
                 EPrint ("Imported " ++ str_of_nat n ++ " rows...")])
    (mk_storage (S (S (st_calls (db s)))) []
       (st_table (db s) ++ st_pending (db s) ++ b)).

(** The state after the handler of the inner [try]. *)
Definition handled (e : exn) (s : state) : state :=
  let n := (error_count s + 1)%nat in
  mk_state (batch s) (row_count s) n
    (if (n <=? 10)%nat
     then trace s ++ [EPrint ("Error processing row: " ++ exn_msg e)]
     else trace s)
    (db s).

(** A world with one row whose flush meets an error at once. *)
Definition a_broken_world : world :=
  mk_world true "y" None (Some [the_example_row])
    (fun n => if (n =? 0)%nat then Some "Lost connection to MySQL server" else None)
    (fun _ => a_moment) [].

(** The rows sent by [executemany], one list per call, in order. *)
Fixpoint flushes (tr : list event) : list (list record) :=
  match tr with
  | [] => []
  | EExecutemany rows :: tr' => rows :: flushes tr'
  | _ :: tr' => flushes tr'
  end.

(** The records of the rows, the first of which is at position [i]. *)
Fixpoint records_from (w : world) (i : nat) (rows : list (gmap string pyval)) : list record :=
  match rows with
  | [] => []
  | row :: rows' => record_of (w_clock w i) row :: records_from w (S i) rows'
  end.

(** A list cut into pieces of [n] elements, the last one perhaps shorter. *)
Fixpoint chunks_fuel {A} (fuel n : nat) (l : list A) : list (list A) :=
  match fuel, l with
  | S fuel', _ :: _ => take n l :: chunks_fuel fuel' n (drop n l)
  | _, _ => []
  end.

Definition chunks {A} (n : nat) (l : list A) : list (list A) :=
  chunks_fuel (length l) n l.

(** The batches as the loop forms them: a record joins the batch, and a
    batch that has reached [bs] records is flushed.  The result is the
    batches flushed and the batch left at the end. *)
Fixpoint batches {A} (bs : nat) (acc : list A) (rs : list A) : list (list A) * list A :=
  match rs with
  | [] => ([], acc)
  | r :: rs' =>
      let acc' := acc ++ [r] in
      if (bs <=? length acc')%nat
      then let '(f, rest) := batches bs [] rs' in (acc' :: f, rest)
      else batches bs acc' rs'
  end.

(** The list left at the end, as the flush after the loop sends it. *)
Definition last_batch {A} (rest : list A) : list (list A) :=
  match rest with
  | [] => []
  | _ :: _ => [rest]
  end.

(** The events that close a run that met no error. *)
Definition summary (n k total : nat) : list event :=
  [ EPrint (newline ++ "Import completed!");
    EPrint ("Total rows imported: " ++ str_of_nat n);
    EPrint ("Errors encountered: " ++ str_of_nat k);
    ECount;
    EPrint ("Total records in database: " ++ str_of_nat total);
    EClose ].

(** Five rows and no error. *)
Definition a_quiet_world : world :=
  mk_world true "y" None
    (Some [the_example_row; the_example_row; the_example_row;
           the_example_row; the_example_row])
    (fun _ => None) (fun _ => a_moment) [].

(** What the script prints before it looks for the file. *)
Definition header : list event :=
  [ EPrint banner;
    EPrint "Customer Analytics - CSV Data Import Script";
    EPrint banner;
    EPrint "" ].

(** The events that reach the database server or the CSV file. *)
Definition touches_data (e : event) : bool :=
  match e with
  | EConnect | EOpen _ | EExecutemany _ | ECommit | ECount | EClose => true
  | EPrint _ | EPrompt _ => false
  end.

(** Five rows, no error, and a capital letter for an answer. *)
Definition a_capital_world : world :=
  mk_world true "Y" None
    (Some [the_example_row; the_example_row; the_example_row;
           the_example_row; the_example_row])
    (fun _ => None) (fun _ => a_moment) [].

Definition a_world_without_file : world :=
  mk_world false "y" None None (fun _ => None) (fun _ => a_moment) [].

Definition a_declining_world : world :=
  mk_world true "no" None (Some [the_example_row]) (fun _ => None) (fun _ => a_moment) [].

(** The table holds 999 rows short of a batch, then a marked row that fills
    the batch, then one more row; the first statement sent to the server
    fails, the later ones do not. *)
Definition a_marked_row : gmap string pyval :=
  {[ "Invoice" := PyStr "LAST"; "Quantity" := PyStr "1"; "Price" := PyStr "1" ]}.

Definition a_faulty_world : world :=
  mk_world true "y" None
    (Some (repeat the_example_row 999 ++ [a_marked_row; the_example_row]))
    (fun n => if (n =? 0)%nat then Some "Lost connection to MySQL server" else None)
    (fun _ => a_moment) [].

Definition is_print (line : string) (e : event) : bool :=
  match e with
  | EPrint l => String.eqb l line
  | _ => false
  end.



(** * Properties *)

(** ** Text *)

Section TextFacts.

Import Text.








Lemma lstrip_blank s : lstrip s = EmptyString <-> all_chars isspace s = true.
Proof.
  induction s as [|c s IH]; simpl; [tauto|].
  destruct (isspace c); simpl; [exact IH|]. split; discriminate.
Qed.



Lemma lower_char_n c : lower_char c = "n"%char -> c = "n"%char \/ c = "N"%char.
Proof.
  destruct c as [[] [] [] [] [] [] [] []]; vm_compute; intros H;
    solve [discriminate | left; reflexivity | right; reflexivity].
Qed.

Lemma lower_char_a c : lower_char c = "a"%char -> c = "a"%char \/ c = "A"%char.
Proof.
  destruct c as [[] [] [] [] [] [] [] []]; vm_compute; intros H;
    solve [discriminate | left; reflexivity | right; reflexivity].
Qed.

Lemma lower_char_y c : lower_char c = "y"%char -> c = "y"%char \/ c = "Y"%char.
Proof.
  destruct c as [[] [] [] [] [] [] [] []]; vm_compute; intros H;
    solve [discriminate | left; reflexivity | right; reflexivity].
Qed.

(** The texts that [lower] sends to [nan]. *)
Lemma lower_nan s :
  lower s = "nan" <->
  exists a b c, s = String a (String b (String c EmptyString)) /\
    (a = "n" \/ a = "N")%char /\ (b = "a" \/ b = "A")%char /\ (c = "n" \/ c = "N")%char.
Proof.
  split.
  - destruct s as [|a [|b [|c [|d s]]]]; simpl; try discriminate.
    intros H. injection H as Ha Hb Hc.
    exists a, b, c. auto using lower_char_n, lower_char_a.
  - intros (a & b & c & -> & Ha & Hb & Hc).
    destruct Ha as [-> | ->], Hb as [-> | ->], Hc as [-> | ->]; reflexivity.
Qed.

(** The answers that [lower] sends to [y]. *)
Lemma lower_y s : lower s = "y" <-> s = "y" \/ s = "Y".
Proof.
  split.
  - destruct s as [|a [|b s]]; simpl; try discriminate.
    intros H. injection H as Ha.
    destruct (lower_char_y a Ha) as [-> | ->]; auto.
  - intros [-> | ->]; reflexivity.
Qed.


End TextFacts.

(** ** [clean_value] *)



(** ** binary64 *)

Section FloatFacts.

Import Float.

(** The constant of the source is the float that [0.01] denotes. *)
Lemma c_0_01_literal : of_string "0.01" = Ok c_0_01.
Proof. reflexivity. Qed.


Lemma c_0_01_positive : ltb zero c_0_01 = true.
Proof. reflexivity. Qed.

(** [trunc] rounds towards zero: on a finite float it is the quotient of
    [Z.quot], which drops the fraction of either sign. *)
Lemma trunc_finite s m e :
  trunc (S754_finite s m e) =
  Ok (if 0 <=? e then cond_Zopp s (Z.pos m * 2 ^ e)
      else Z.quot (cond_Zopp s (Z.pos m)) (2 ^ (- e))).
Proof.
  unfold trunc. f_equal.
  destruct (0 <=? e) eqn:He; [destruct s; reflexivity|].
  apply Z.leb_gt in He.
  assert (0 < 2 ^ (- e)) by (apply Z.pow_pos_nonneg; lia).
  destruct s; unfold cond_Zopp.
  - rewrite Z.quot_opp_l by lia.
    rewrite Z.quot_div_nonneg by lia. reflexivity.
  - rewrite Z.quot_div_nonneg by lia. reflexivity.
Qed.

Lemma trunc_total x : is_nan x = false ->
  (forall s, x <> S754_infinity s) -> exists n, trunc x = Ok n.
Proof.
  destruct x as [s | s | | s m e]; simpl; intros Hn Hi; eauto.
  - now destruct (Hi s).
  - discriminate.
Qed.

End FloatFacts.

(** ** The row transformer *)

Lemma try_except_ok {A} (body : res A) (d : A) :
  try_except body (Ok d) = Ok (match body with Ok a => a | Raise _ => d end).
Proof. destruct body; reflexivity. Qed.

(** The three guarded conversions always yield a value. *)
Lemma derive_quantity_ok row :
  derive_quantity row =
  Ok (match py_int_float (py_or (row_get row "Quantity" (PyInt 0)) (PyInt 0)) with
      | Ok n => n
      | Raise _ => 1
      end).
Proof. apply try_except_ok. Qed.

Lemma derive_price_ok row :
  derive_price row =
  Ok (match py_float (py_or (row_get row "Price" (PyInt 0)) (PyInt 0)) with
      | Ok x => if Float.leb x Float.zero then Float.c_0_01 else x
      | Raise _ => Float.c_0_01
      end).
Proof.
  unfold derive_price.
  destruct (py_float _) as [x | e]; simpl; [|reflexivity].
  destruct (Float.leb x Float.zero); reflexivity.
Qed.

Lemma derive_customer_id_ok row :
  derive_customer_id row =
  Ok (match clean_value (row_get row "Customer ID" (PyStr "")) with
      | Some s =>
          match py_int_float (PyStr s) with
          | Ok n => Some (Text.str_of_Z n)
          | Raise _ => None
          end
      | None => None
      end).
Proof.
  unfold derive_customer_id.
  destruct (clean_value _) as [s |] eqn:Hc; simpl; [|reflexivity].
  assert (Hs : Text.is_empty s = false).
  { unfold clean_value in Hc.
    destruct (row_get _ _ _); try discriminate;
      destruct (Text.is_empty (Text.strip _)) eqn:E; simpl in Hc; try discriminate;
      destruct (String.eqb _ _); try discriminate;
      injection Hc as <-; exact E. }
  rewrite Hs. simpl.
  destruct (py_int_float (PyStr s)); reflexivity.
Qed.

(** No row makes the transformer raise. *)
Lemma transform_row_ok now row : transform_row now row = Ok (record_of now row).
Proof.
  unfold transform_row.
  rewrite derive_quantity_ok, derive_price_ok, derive_customer_id_ok.
  reflexivity.
Qed.



(** *** Price *)




(** The case the amended claim leaves open: [nan] parses, is not at most
    zero, and is kept. *)
Example price_nan :
  price (record_of a_moment {[ "Price" := PyStr "nan" ]}) = S754_nan.
Proof. reflexivity. Qed.

(** *** Quantity *)




(** Conversions that fail: a text that is no number, and the floats that
    have no integer part. *)
Example quantity_fallbacks :
  map (fun s => quantity (record_of a_moment {[ "Quantity" := PyStr s ]}))
    ["six"; "nan"; "inf"; "1e999"; "1,5"; " 7.9 "; "1_0"; "-0.5"] =
  [1; 1; 1; 1; 1; 7; 10; 0].
Proof. vm_compute. reflexivity. Qed.

(** *** The example row, and the customer id *)

(** The customer id is the integer part of the cleaned cell, printed in
    decimal, and absent when the cell is null-like or is no finite number. *)
Lemma customer_id_round_trip now row :
  customer_id (record_of now row) =
  match clean_value (row_get row "Customer ID" (PyStr "")) with
  | Some s =>
      match py_int_float (PyStr s) with
      | Ok n => Some (Text.str_of_Z n)
      | Raise _ => None
      end
  | None => None
  end.
Proof. reflexivity. Qed.

(** C7.  A row with Invoice [536365], Quantity [6], Price [2.55] and
    Customer ID [17850.0] gives a record with quantity 6, price 2.55 (the
    float of that literal) and customer id [17850]: the round trip through
    [float] and [int] drops the [.0].  For any row, a customer id whose
    round trip fails is absent. *)
Theorem transform_example_row (now : datetime) (row : gmap string pyval) :
  row !! "Invoice" = Some (PyStr "536365") ->
  row !! "Quantity" = Some (PyStr "6") ->
  row !! "Price" = Some (PyStr "2.55") ->
  row !! "Customer ID" = Some (PyStr "17850.0") ->
  (exists r, transform_row now row = Ok r /\
     invoice r = Some "536365" /\
     quantity r = 6 /\
     Float.of_string "2.55" = Ok (price r) /\
     price r = S754_finite false 5742089524897382 (-51) /\
     customer_id r = Some "17850") /\
  (forall now' row' r' s e,
     transform_row now' row' = Ok r' ->
     clean_value (row_get row' "Customer ID" (PyStr "")) = Some s ->
     py_int_float (PyStr s) = Raise e ->
     customer_id r' = None).
Proof.
  intros Hi Hq Hp Hc. split.
  - exists (record_of now row). split; [apply transform_row_ok|].
    unfold record_of, row_get. rewrite Hi, Hq, Hp, Hc. simpl.
    repeat split; vm_compute; reflexivity.
  - intros now' row' r' s e Hr Hs He.
    rewrite transform_row_ok in Hr. injection Hr as <-.
    rewrite customer_id_round_trip, Hs, He. reflexivity.
Qed.

Lemma transform_example_row_witness :
  exists r, transform_row a_moment the_example_row = Ok r /\
    quantity r = 6 /\ customer_id r = Some "17850".
Proof.
  destruct (transform_example_row a_moment the_example_row) as [(r & Hr & _ & Hq & _ & _ & Hc) _];
    try (vm_compute; reflexivity).
  exists r. auto.
Defined.

(** Customer ids whose round trip fails, or that are null-like. *)
Example customer_id_fallbacks :
  map (fun s => customer_id (record_of a_moment {[ "Customer ID" := PyStr s ]}))
    ["C17850"; "inf"; "nan"; "  "; " 12345.9 "; "1e3"] =
  [None; None; None; None; Some "12345"; Some "1000"].
Proof. vm_compute. reflexivity. Qed.

(** ** [parse_date] *)

Section DateFacts.

Import Datetime.

(** Every failure of [strptime] is a [ValueError]. *)
Lemma compile_ValueError fmt :
  (forall e, compile fmt = Raise e -> is_ValueError e = true) /\
  (forall c e, compile (String c fmt) = Raise e -> is_ValueError e = true).
Proof.
  induction fmt as [|d fmt [IH1 IH2]].
  - split; [discriminate|].
    intros c e. simpl.
    destruct (Ascii.eqb_spec c "%") as [-> | Hc].
    + intros H. injection H as <-. reflexivity.
    + destruct c as [[] [] [] [] [] [] [] []]; try (now destruct Hc);
        vm_compute; discriminate.
  - split; [exact (IH2 d)|].
    intros c e.
    assert (Hrest : forall k : list item -> res (list item),
               (forall its, exists its', k its = Ok its') ->
               (its ← compile (String d fmt); k its) = Raise e ->
               is_ValueError e = true).
    { intros k Hk. destruct (compile (String d fmt)) as [its | e'] eqn:E.
      - simpl. destruct (Hk its) as [its' ->]. discriminate.
      - simpl. intros H. injection H as <-. now apply (IH2 d). }
    destruct (Ascii.eqb_spec c "%") as [-> | Hc].
    + simpl. destruct (directive d) as [alts |].
      * destruct (compile fmt) as [its | e'] eqn:E; simpl.
        -- discriminate.
        -- intros H. injection H as <-. now apply IH1.
      * intros H. injection H as <-. reflexivity.
    + assert (Hstep : compile (String c (String d fmt)) =
                (its ← compile (String d fmt);
                 if Text.isspace c then
                   match its with
                   | Spaces :: _ => Ok its
                   | _ => Ok (Spaces :: its)
                   end
                 else Ok (Lit c :: its))).
      { destruct c as [[] [] [] [] [] [] [] []]; try reflexivity.
        now destruct Hc. }
      rewrite Hstep. apply Hrest.
      intros its. destruct (Text.isspace c); [|eauto].
      destruct its as [|[] ?]; eauto.
Qed.

Lemma py_int_of_str_ValueError t e :
  py_int_of_str t = Raise e -> is_ValueError e = true.
Proof.
  unfold py_int_of_str. destruct (Float.parse_sign _) as [neg ds].
  destruct (_ && _); [discriminate|].
  intros H. injection H as <-. reflexivity.
Qed.

Lemma field_ValueError d dflt caps e :
  field d dflt caps = Raise e -> is_ValueError e = true.
Proof.
  unfold field. destruct (group d caps); [apply py_int_of_str_ValueError | discriminate].
Qed.

Lemma make_ValueError y m d H M S e :
  make y m d H M S = Raise e -> is_ValueError e = true.
Proof.
  unfold make. destruct (_ && _); [discriminate|].
  intros E. injection E as <-. reflexivity.
Qed.

Lemma res_bind_Raise {A B} (r : res A) (k : A -> res B) e :
  (x ← r; k x) = Raise e ->
  r = Raise e \/ exists a, r = Ok a /\ k a = Raise e.
Proof.
  destruct r as [a | e']; simpl; intros H; [right; eauto | left].
  injection H as <-. reflexivity.
Qed.

Lemma strptime_ValueError s fmt e :
  strptime s fmt = Raise e -> is_ValueError e = true.
Proof.
  unfold strptime. intros H.
  apply res_bind_Raise in H as [H | (its & _ & H)].
  { now apply (proj1 (compile_ValueError fmt)). }
  destruct (match_items its s) as [|[caps [|c r]] ?].
  - injection H as <-. reflexivity.
  - repeat (apply res_bind_Raise in H as [H | (? & _ & H)];
            [now apply field_ValueError in H|]).
    now apply make_ValueError in H.
  - injection H as <-. reflexivity.
Qed.

End DateFacts.

Lemma try_formats_str s fmts :
  try_formats (PyStr s) fmts = Ok (first_parse (Text.strip s) fmts).
Proof.
  induction fmts as [|fmt fmts IH]; simpl; [reflexivity|].
  destruct (Datetime.strptime (Text.strip s) fmt) as [d | e] eqn:E; [reflexivity|].
  now rewrite (strptime_ValueError _ _ _ E).
Qed.

Section FormatFacts.

Import Datetime.

Lemma match_classes_split a t txt r :
  match_classes a t = Some (txt, r) ->
  t = (txt ++ r)%string /\ String.length txt = length a.
Proof.
  revert t txt r. induction a as [|p a IH]; intros t txt r; simpl.
  - intros H. injection H as <- <-. auto.
  - destruct t as [|c t]; [discriminate|].
    destruct (p c); [|discriminate].
    destruct (match_classes a t) as [[t1 r1]|] eqn:E; [|discriminate].
    intros H. injection H as <- <-.
    destruct (IH _ _ _ E) as [-> Hl]. simpl. auto.
Qed.

(** A group followed by a literal: some alternative of the group matched
    and the literal stands right after it. *)
Lemma match_group_lit d alts c its t :
  match_items (Group d alts :: Lit c :: its) t <> [] ->
  exists a txt r, In a alts /\ match_classes a t = Some (txt, String c r).
Proof.
  simpl. induction alts as [|a alts IH]; simpl; [intros H; now destruct H|].
  intros H.
  destruct (match_classes a t) as [[txt r]|] eqn:E.
  - destruct r as [|c' r].
    + simpl in H. destruct (IH H) as (a' & txt' & r' & Hin & Hm). eauto 6.
    + destruct (Ascii.eqb_spec c c') as [<- | Hc]; [eauto 7|].
      simpl in H. destruct (IH H) as (a' & txt' & r' & Hin & Hm). eauto 6.
  - simpl in H. destruct (IH H) as (a' & txt' & r' & Hin & Hm). eauto 6.
Qed.

Lemma strptime_Ok_match t fmt d :
  strptime t fmt = Ok d ->
  exists its, compile fmt = Ok its /\ match_items its t <> [].
Proof.
  unfold strptime. destruct (compile fmt) as [its | e]; simpl; [|discriminate].
  intros H. exists its. split; [reflexivity|].
  destruct (match_items its t); [discriminate | congruence].
Qed.

Lemma match_four p1 p2 p3 p4 t txt r :
  match_classes [p1; p2; p3; p4] t = Some (txt, r) ->
  exists c1 c2 c3 c4,
    txt = String c1 (String c2 (String c3 (String c4 EmptyString))) /\
    p2 c2 = true /\ p3 c3 = true.
Proof.
  intros H. destruct (match_classes_split _ _ _ _ H) as [-> Hl].
  destruct txt as [|c1 [|c2 [|c3 [|c4 [|c5 txt]]]]]; try discriminate Hl.
  exists c1, c2, c3, c4. split; [reflexivity|].
  simpl in H.
  destruct (p1 c1); [|discriminate].
  destruct (p2 c2); [|discriminate].
  destruct (p3 c3); [|discriminate].
  auto.
Qed.

Lemma compile_dashed :
  exists its,
    compile "%Y-%m-%d %H:%M:%S" = Ok (Group "Y" [[dig; dig; dig; dig]] :: Lit "-" :: its).
Proof. eexists. reflexivity. Qed.

Lemma compile_slashed fmt :
  fmt = "%m/%d/%Y %H:%M" \/ fmt = "%d/%m/%Y %H:%M" ->
  exists d alts its,
    compile fmt = Ok (Group d alts :: Lit "/" :: its) /\
    forall a, In a alts -> (length a = 1 \/ length a = 2)%nat.
Proof.
  intros [-> | ->]; do 3 eexists; (split; [reflexivity|]);
    simpl; intuition (subst; auto).
Qed.

(** A text cannot match both the dashed format and a slashed one: the
    former wants four digits first, the latter a slash after one or two
    characters. *)
Lemma dashed_excludes_slashed t d fmt :
  fmt = "%m/%d/%Y %H:%M" \/ fmt = "%d/%m/%Y %H:%M" ->
  strptime t fmt = Ok d ->
  exists e, strptime t "%Y-%m-%d %H:%M:%S" = Raise e.
Proof.
  intros Hfmt Hs.
  destruct (strptime t "%Y-%m-%d %H:%M:%S") as [d1 | e] eqn:H1; [exfalso | eauto].
  apply strptime_Ok_match in H1 as (its1 & Hc1 & Hm1).
  apply strptime_Ok_match in Hs as (its2 & Hc2 & Hm2).
  destruct compile_dashed as (r1 & E1). rewrite E1 in Hc1. injection Hc1 as <-.
  destruct (compile_slashed fmt Hfmt) as (d2 & alts & r2 & E2 & Hlen).
  rewrite E2 in Hc2. injection Hc2 as <-.
  apply match_group_lit in Hm1 as (a1 & txt1 & s1 & Hin1 & Ha1).
  destruct Hin1 as [<- | []].
  apply match_classes_split in Ha1 as Hsplit1. destruct Hsplit1 as [Ht1 _].
  apply match_four in Ha1 as (c1 & c2 & c3 & c4 & -> & Hd2 & Hd3).
  apply match_group_lit in Hm2 as (a2 & txt2 & s2 & Hin2 & Ha2).
  apply Hlen in Hin2.
  apply match_classes_split in Ha2 as [Ht2 Hl2].
  rewrite Ht1 in Ht2.
  destruct Hin2 as [Hn | Hn]; rewrite Hn in Hl2;
    destruct txt2 as [|x [|y [|z txt2]]]; try discriminate Hl2;
    injection Ht2 as ? ? ?; subst; discriminate.
Qed.

End FormatFacts.

(** C5.  The Date Parser tries [%Y-%m-%d %H:%M:%S], [%m/%d/%Y %H:%M] and
    [%d/%m/%Y %H:%M] in that order on the trimmed text and returns the
    result of the first that parses; it returns [None] when none parses and
    when the input is not a text.  A text that parses under both slashed
    formats is read month first. *)
Theorem parse_date_order :
  formats = ["%Y-%m-%d %H:%M:%S"; "%m/%d/%Y %H:%M"; "%d/%m/%Y %H:%M"] /\
  (forall s, parse_date (PyStr s) = first_parse (Text.strip s) formats) /\
  (parse_date PyNone = None /\ forall z, parse_date (PyInt z) = None) /\
  (forall s d2 d3,
     Datetime.strptime (Text.strip s) "%m/%d/%Y %H:%M" = Ok d2 ->
     Datetime.strptime (Text.strip s) "%d/%m/%Y %H:%M" = Ok d3 ->
     parse_date (PyStr s) = Some d2) /\
  parse_date (PyStr "03/04/2021 10:00") = Some (Datetime.mk_datetime 2021 3 4 10 0 0).
Proof.
  assert (Hfirst : forall s, parse_date (PyStr s) = first_parse (Text.strip s) formats).
  { intros s. unfold parse_date. now rewrite try_formats_str. }
  split; [reflexivity|].
  split; [exact Hfirst|].
  split; [split; reflexivity|].
  split; [|reflexivity].
  intros s d2 d3 H2 _. rewrite Hfirst. unfold formats, first_parse.
  destruct (dashed_excludes_slashed _ _ _ (or_introl eq_refl) H2) as [e ->].
  now rewrite H2.
Qed.

(** A text that parses under both slashed formats, as the third of March or
    as the fourth of April; [parse_date] answers the fourth of March. *)
Lemma parse_date_order_witness :
  Datetime.strptime "03/04/2021 10:00" "%d/%m/%Y %H:%M" =
    Ok (Datetime.mk_datetime 2021 4 3 10 0 0) /\
  parse_date (PyStr " 03/04/2021 10:00 ") = Some (Datetime.mk_datetime 2021 3 4 10 0 0).
Proof.
  split; [reflexivity|].
  apply (proj1 (proj2 (proj2 (proj2 parse_date_order)))
           " 03/04/2021 10:00 " _ (Datetime.mk_datetime 2021 4 3 10 0 0));
    reflexivity.
Defined.

(** Dates as the three formats read them. *)
Example parse_date_samples :
  map (fun s => parse_date (PyStr s))
    ["2010-12-01 08:26:00"; "12/1/2010 8:26"; "13/01/2010 08:26";
     "not-a-date"; "02/30/2021 10:00"; ""] =
  [Some (Datetime.mk_datetime 2010 12 1 8 26 0);
   Some (Datetime.mk_datetime 2010 12 1 8 26 0);
   Some (Datetime.mk_datetime 2010 1 13 8 26 0);
   None; None; None].
Proof. vm_compute. reflexivity. Qed.

(** ** Running the loader *)

Section RunFacts.

Variable w : world.
Variable bs : nat.

Lemma bind_run {A B} (m : M A) (k : A -> M B) s :
  (m ≫= k) s =
  match m s with
  | (Ok a, s') => k a s'
  | (Raise e, s') => (Raise e, s')
  end.
Proof. reflexivity. Qed.

Lemma bind_gets {A B} (f : state -> A) (k : A -> M B) s :
  (gets f ≫= k) s = k (f s) s.
Proof. reflexivity. Qed.

Lemma bind_modify {B} (f : state -> state) (k : unit -> M B) s :
  (modify f ≫= k) s = k tt (f s).
Proof. reflexivity. Qed.

Lemma bind_emit {B} e (k : unit -> M B) s :
  (emit e ≫= k) s = k tt (log e s).
Proof. reflexivity. Qed.

Lemma bind_print {B} l (k : unit -> M B) s :
  (print l ≫= k) s = k tt (log (EPrint l) s).
Proof. reflexivity. Qed.

Lemma statement_ok e eff s :
  w_fault w (st_calls (db s)) = None ->
  statement w e eff s =
  (Ok tt,
   mk_state (batch s) (row_count s) (error_count s) (trace s ++ [e])
     (mk_storage (S (st_calls (db s))) (st_pending (eff (db s))) (st_table (eff (db s))))).
Proof. intros H. unfold statement. rewrite H. reflexivity. Qed.

Lemma statement_fault e eff s m :
  w_fault w (st_calls (db s)) = Some m ->
  statement w e eff s =
  (Raise (Exn MySQLError m),
   mk_state (batch s) (row_count s) (error_count s) (trace s ++ [e])
     (mk_storage (S (st_calls (db s))) (st_pending (db s)) (st_table (db s)))).
Proof. intros H. unfold statement. rewrite H. reflexivity. Qed.

Lemma flush_full_skip s :
  (length (batch s) < bs)%nat -> flush_full w bs s = (Ok tt, s).
Proof.
  intros H. unfold flush_full. rewrite bind_gets.
  destruct (Nat.leb_spec bs (length (batch s))); [lia | reflexivity].
Qed.

Lemma flush_full_ok s :
  (bs <= length (batch s))%nat ->
  w_fault w (st_calls (db s)) = None ->
  w_fault w (S (st_calls (db s))) = None ->
  flush_full w bs s = (Ok tt, flushed s).
Proof.
  intros Hb H0 H1. unfold flush_full. rewrite bind_gets.
  destruct (Nat.leb_spec bs (length (batch s))); [|lia].
  unfold executemany, commit.
  rewrite bind_run, statement_ok by exact H0.
  rewrite bind_run, statement_ok by exact H1.
  rewrite bind_modify, bind_gets, bind_print.
  unfold modify, flushed, log, set_batch, set_row_count. simpl.
  rewrite <- !app_assoc. reflexivity.
Qed.

Lemma row_body_run i row s :
  row_body w bs i row s =
  flush_full w bs (set_batch (batch s ++ [record_of (w_clock w i) row]) s).
Proof.
  unfold row_body. rewrite transform_row_ok. reflexivity.
Qed.

(** When the flush of a full batch raises, a statement of it met a planned
    error; the batch and the counters are as before. *)
Lemma flush_full_raise s e s' :
  flush_full w bs s = (Raise e, s') ->
  (bs <= length (batch s))%nat /\
  exn_cls e = MySQLError /\
  (exists k, (k = st_calls (db s) \/ k = S (st_calls (db s))) /\
             w_fault w k = Some (exn_msg e)) /\
  batch s' = batch s /\ row_count s' = row_count s /\
  error_count s' = error_count s /\
  st_table (db s') = st_table (db s).
Proof.
  unfold flush_full. rewrite bind_gets.
  destruct (Nat.leb_spec bs (length (batch s))) as [Hb | Hb]; [|discriminate].
  unfold executemany, commit. rewrite bind_run.
  destruct (w_fault w (st_calls (db s))) as [m |] eqn:H0.
  - rewrite (statement_fault _ _ _ _ H0).
    intros H. injection H as <- <-. simpl. eauto 10.
  - rewrite (statement_ok _ _ _ H0). rewrite bind_run.
    match goal with |- context [statement w ECommit ?f ?t] => set (s1 := t) end.
    destruct (w_fault w (S (st_calls (db s)))) as [m |] eqn:H1.
    + rewrite (statement_fault ECommit _ s1 m) by exact H1.
      intros H. injection H as <- <-. simpl. eauto 10.
    + rewrite (statement_ok ECommit _ s1) by exact H1.
      rewrite bind_modify, bind_gets, bind_print. discriminate.
Qed.

Lemma row_handler_run e s : row_handler e s = (Ok tt, handled e s).
Proof.
  unfold row_handler. rewrite bind_modify, bind_gets. unfold handled. simpl.
  destruct (error_count s + 1 <=? 10)%nat; reflexivity.
Qed.

(** A row never stops the loop: its body ends, or its error is handled. *)
Lemma process_row_run i row s :
  process_row w bs i row s =
  match row_body w bs i row s with
  | (Ok _, s') => (Ok tt, s')
  | (Raise e, s') => (Ok tt, handled e s')
  end.
Proof.
  unfold process_row, catch.
  destruct (row_body w bs i row s) as [[[] | e] s']; [reflexivity|].
  apply row_handler_run.
Qed.

Lemma loop_never_raises rows : forall i s, exists s', loop w bs i rows s = (Ok tt, s').
Proof.
  induction rows as [|row rows IH]; intros i s; simpl; [eauto|].
  rewrite bind_run, process_row_run.
  destruct (row_body w bs i row s) as [[[] | e] s']; apply IH.
Qed.

Lemma flush_full_Ok s u s' :
  flush_full w bs s = (Ok u, s') -> s' = s \/ s' = flushed s.
Proof.
  destruct (Nat.leb_spec bs (length (batch s))) as [Hb | Hb].
  - destruct (w_fault w (st_calls (db s))) as [m |] eqn:H0.
    + unfold flush_full. rewrite bind_gets.
      destruct (Nat.leb_spec bs (length (batch s))); [|lia].
      unfold executemany. rewrite bind_run, (statement_fault _ _ _ _ H0).
      discriminate.
    + destruct (w_fault w (S (st_calls (db s)))) as [m |] eqn:H1.
      * unfold flush_full. rewrite bind_gets.
        destruct (Nat.leb_spec bs (length (batch s))); [|lia].
        unfold executemany, commit.
        rewrite bind_run, (statement_ok _ _ _ H0), bind_run.
        match goal with |- context [statement w ECommit ?f ?t] => set (s1 := t) end.
        rewrite (statement_fault ECommit _ s1 m) by exact H1. discriminate.
      * rewrite flush_full_ok by assumption. intros H. injection H as _ <-. auto.
  - rewrite flush_full_skip by assumption. intros H. injection H as _ <-. auto.
Qed.

End RunFacts.

(** ** The per-row error branch *)

(** C10.  Deriving the fields of a row never raises: every row gives a
    record, and the date parser answers [None] on a value that is no text.
    So when the body of the inner [try] raises, the exception is a storage
    error met by the flush of a full batch, and the handler of the inner
    [try] runs only then. *)
Theorem row_errors_only_from_flush
    (w : world) (bs i : nat) (row : gmap string pyval) (s : state) :
  (exists r, transform_row (w_clock w i) row = Ok r) /\
  (forall v, (forall t, v <> PyStr t) -> parse_date v = None) /\
  (forall e s', row_body w bs i row s = (Raise e, s') ->
     exn_cls e = MySQLError /\
     (bs <= length (batch s) + 1)%nat /\
     exists k, (k = st_calls (db s) \/ k = S (st_calls (db s))) /\
               w_fault w k = Some (exn_msg e)) /\
  (error_count (snd (process_row w bs i row s)) <> error_count s ->
     exists e s', row_body w bs i row s = (Raise e, s')).
Proof.
  split; [eexists; apply transform_row_ok|].
  split.
  { intros [| t | z] H; [reflexivity | now destruct (H t) | reflexivity]. }
  split.
  - intros e s' H. rewrite row_body_run in H.
    apply flush_full_raise in H as (Hb & He & Hk & _).
    simpl in Hb. rewrite length_app in Hb. simpl in Hb, Hk. auto.
  - rewrite process_row_run.
    destruct (row_body w bs i row s) as [[[] | e] s'] eqn:E; [|eauto].
    intros H. exfalso. apply H. simpl.
    rewrite row_body_run in E. apply flush_full_Ok in E as [-> | ->]; reflexivity.
Qed.

Lemma row_errors_only_from_flush_witness :
  exists e s',
    row_body a_broken_world 1 0 the_example_row (initial a_broken_world) = (Raise e, s') /\
    exn_cls e = MySQLError.
Proof.
  destruct (row_body a_broken_world 1 0 the_example_row (initial a_broken_world))
    as [[[] | e] s'] eqn:E; [vm_compute in E; discriminate E|].
  exists e, s'. split; [reflexivity|].
  exact (proj1 (proj1 (proj2 (proj2
    (row_errors_only_from_flush a_broken_world 1 0 the_example_row
       (initial a_broken_world)))) e s' E)).
Defined.

(** ** Batches *)

Lemma flushes_app a b : flushes (a ++ b) = flushes a ++ flushes b.
Proof.
  induction a as [|e a IH]; [reflexivity|].
  destruct e; simpl; rewrite IH; reflexivity.
Qed.

Lemma records_from_length w i rows : length (records_from w i rows) = length rows.
Proof. revert i. induction rows; intros i; simpl; auto. Qed.

Section Chunks.

Context {A : Type}.
Variable n : nat.
Hypothesis n_pos : (0 < n)%nat.

Lemma chunks_fuel_enough (f1 f2 : nat) (l : list A) :
  (length l <= f1)%nat -> (length l <= f2)%nat ->
  chunks_fuel f1 n l = chunks_fuel f2 n l.
Proof.
  revert f2 l. induction f1 as [|f1 IH]; intros f2 l H1 H2.
  - destruct l; [|simpl in H1; lia]. destruct f2; reflexivity.
  - destruct l as [|x l]; [destruct f2; reflexivity|].
    destruct f2 as [|f2]; [simpl in H2; lia|].
    simpl. f_equal. apply IH; rewrite length_drop; simpl in *; lia.
Qed.

Lemma chunks_nil : chunks n (@nil A) = [].
Proof. reflexivity. Qed.

Lemma chunks_cons (x : A) (l : list A) :
  chunks n (x :: l) = take n (x :: l) :: chunks n (drop n (x :: l)).
Proof.
  unfold chunks. simpl. f_equal.
  apply chunks_fuel_enough; rewrite ?length_drop; simpl; lia.
Qed.

(** The pieces, put end to end, are the list. *)
Lemma chunks_concat (l : list A) : concat (chunks n l) = l.
Proof.
  remember (length l) as k eqn:Hk. revert l Hk.
  induction k as [k IH] using lt_wf_ind. intros l Hk.
  destruct l as [|x l]; [reflexivity|].
  rewrite chunks_cons. simpl concat.
  rewrite (IH (length (drop n (x :: l)))); [apply take_drop | | reflexivity].
  rewrite length_drop. simpl in *. lia.
Qed.

(** Every piece is non-empty and holds at most [n] elements; every piece
    but the last holds [n]. *)
Lemma chunks_sizes (l : list A) :
  Forall (fun c => (0 < length c <= n)%nat) (chunks n l) /\
  forall j c, chunks n l !! j = Some c -> (S j < length (chunks n l))%nat ->
              length c = n.
Proof.
  remember (length l) as k eqn:Hk. revert l Hk.
  induction k as [k IH] using lt_wf_ind. intros l Hk.
  destruct l as [|x l]; [split; [constructor | intros j c H; discriminate H]|].
  rewrite chunks_cons.
  assert (Hd : (length (drop n (x :: l)) < k)%nat)
    by (rewrite length_drop; simpl in *; lia).
  destruct (IH _ Hd (drop n (x :: l)) eq_refl) as [IH1 IH2].
  split.
  - constructor; [|exact IH1]. rewrite length_take. simpl. lia.
  - intros [|j] c Hc Hj; simpl in Hc, Hj.
    + injection Hc as <-. rewrite length_take.
      destruct (drop n (x :: l)) as [|y t] eqn:E; [simpl in Hj; lia|].
      assert (length (drop n (x :: l)) > 0)%nat by (rewrite E; simpl; lia).
      rewrite length_drop in *. lia.
    + apply (IH2 j c Hc). lia.
Qed.

End Chunks.

Lemma batches_chunks {A} (bs : nat) (rs acc : list A) :
  (length acc < Nat.max 1 bs)%nat ->
  fst (batches bs acc rs) ++ last_batch (snd (batches bs acc rs)) =
  chunks (Nat.max 1 bs) (acc ++ rs).
Proof.
  set (n := Nat.max 1 bs). assert (Hn : (0 < n)%nat) by lia.
  revert acc. induction rs as [|r rs IH]; intros acc Hacc; simpl.
  - rewrite app_nil_r. destruct acc as [|x acc]; [reflexivity|].
    rewrite (chunks_cons n Hn). simpl last_batch.
    rewrite take_ge, drop_ge by lia. reflexivity.
  - destruct (Nat.leb_spec bs (length (acc ++ [r]))) as [Hb | Hb].
    + rewrite length_app in Hb. simpl in Hb.
      assert (Hlen : length (acc ++ [r]) = n) by (rewrite length_app; simpl; lia).
      specialize (IH [] ltac:(simpl; lia)).
      destruct (batches bs [] rs) as [f rest]. simpl in *.
      rewrite IH.
      replace (acc ++ r :: rs) with ((acc ++ [r]) ++ rs) by (now rewrite <- app_assoc).
      destruct (acc ++ [r]) as [|x t] eqn:E; [destruct acc; discriminate|].
      rewrite <- app_comm_cons, (chunks_cons n Hn), app_comm_cons.
      rewrite take_app_length', drop_app_length' by (symmetry; exact Hlen). reflexivity.
    + rewrite length_app in Hb. simpl in Hb.
      rewrite IH by (rewrite length_app; simpl; lia).
      now rewrite <- app_assoc.
Qed.

Section NoFault.

Variable w : world.
Variable bs : nat.
Hypothesis no_fault : forall n, w_fault w n = None.

Lemma loop_no_fault rows : forall i s,
  st_pending (db s) = [] ->
  exists s', loop w bs i rows s = (Ok tt, s') /\
    batch s' = snd (batches bs (batch s) (records_from w i rows)) /\
    flushes (trace s') =
      flushes (trace s) ++ fst (batches bs (batch s) (records_from w i rows)) /\
    row_count s' =
      (row_count s + length (concat (fst (batches bs (batch s) (records_from w i rows)))))%nat /\
    error_count s' = error_count s /\
    st_table (db s') =
      st_table (db s) ++ concat (fst (batches bs (batch s) (records_from w i rows))) /\
    st_pending (db s') = [].
Proof.
  induction rows as [|row rows IH]; intros i s Hp.
  - exists s. simpl. rewrite !app_nil_r, Nat.add_0_r. repeat split; auto.
  - simpl loop. rewrite bind_run, process_row_run, row_body_run.
    set (r := record_of (w_clock w i) row).
    set (s1 := set_batch (batch s ++ [r]) s).
    simpl records_from. fold r. simpl batches.
    destruct (Nat.leb_spec bs (length (batch s ++ [r]))) as [Hb | Hb].
    + rewrite flush_full_ok by (auto using no_fault).
      destruct (IH (S i) (flushed s1)) as (s' & Hl & H1 & H2 & H3 & H4 & H5 & H6);
        [reflexivity|].
      exists s'. split; [exact Hl|].
      simpl in H1, H2, H3, H4, H5.
      destruct (batches bs [] (records_from w (S i) rows)) as [f rest].
      simpl in *. rewrite Hp in H5. simpl in H5.
      rewrite H1, H2, H3, H4, H5, H6.
      rewrite flushes_app. simpl. rewrite <- !app_assoc.
      repeat split; trivial. rewrite !length_app. simpl. lia.
    + rewrite flush_full_skip by exact Hb.
      destruct (IH (S i) s1 Hp) as (s' & Hl & H).
      exists s'. split; [exact Hl | exact H].
Qed.

Lemma flush_rest_no_fault s :
  st_pending (db s) = [] ->
  exists s', flush_rest w s = (Ok tt, s') /\
    flushes (trace s') = flushes (trace s) ++ last_batch (batch s) /\
    row_count s' = (row_count s + length (batch s))%nat /\
    error_count s' = error_count s /\
    st_table (db s') = st_table (db s) ++ batch s /\
    st_pending (db s') = [].
Proof.
  intros Hp. unfold flush_rest. rewrite bind_gets.
  destruct (batch s) as [|x b] eqn:Eb.
  - exists s. simpl. rewrite !app_nil_r, Nat.add_0_r. repeat split; auto.
  - unfold executemany, commit.
    rewrite bind_run, statement_ok by apply no_fault.
    rewrite bind_run, statement_ok by apply no_fault.
    eexists. split; [reflexivity|]. simpl.
    rewrite Eb, Hp, flushes_app, flushes_app. simpl.
    rewrite app_nil_r. repeat split; auto.
Qed.

Lemma bind_ok {A B} (m : M A) (k : A -> M B) s a s' :
  m s = (Ok a, s') -> (m ≫= k) s = k a s'.
Proof. intros H. rewrite bind_run, H. reflexivity. Qed.

Lemma connect_ok s : w_connect w = None -> connect w s = (Ok tt, log EConnect s).
Proof. intros H. unfold connect. rewrite bind_emit, H. reflexivity. Qed.

Lemma open_csv_ok rows s :
  w_csv w = Some rows -> open_csv w s = (Ok rows, log (EOpen CSV_FILE) s).
Proof. intros H. unfold open_csv. rewrite bind_emit, H. reflexivity. Qed.

Lemma select_count_no_fault s :
  select_count w s =
  (Ok (length (st_table (db s) ++ st_pending (db s))),
   set_db (mk_storage (S (st_calls (db s))) (st_pending (db s)) (st_table (db s)))
     (log ECount s)).
Proof.
  unfold select_count. rewrite bind_run, statement_ok by apply no_fault.
  reflexivity.
Qed.

Lemma import_no_fault rows :
  w_connect w = None -> w_csv w = Some rows ->
  exists s, import_data_with w bs (initial w) = (Ok None, s) /\
    flushes (trace s) = chunks (Nat.max 1 bs) (records_from w 0 rows) /\
    row_count s = length rows /\
    error_count s = 0%nat /\
    st_table (db s) = w_table w ++ records_from w 0 rows /\
    exists tr, trace s =
      tr ++ summary (length rows) 0 (length (w_table w) + length rows).
Proof.
  intros Hc Hf.
  set (s0 := log (EOpen CSV_FILE)
               (log (EPrint ("Reading CSV file: " ++ CSV_FILE))
                  (log (EPrint ("Connected to database: " ++ DB_DATABASE))
                     (log EConnect (initial w))))).
  destruct (loop_no_fault rows 0 s0 eq_refl) as (s1 & Hl & B1 & F1 & R1 & E1 & T1 & P1).
  destruct (flush_rest_no_fault s1 P1) as (s2 & Hr & F2 & R2 & E2 & T2 & P2).
  pose proof (batches_chunks bs (records_from w 0 rows) [] ltac:(simpl; lia)) as Hch.
  rewrite app_nil_l in Hch.
  simpl in B1, F1, R1, E1, T1. rewrite <- B1 in Hch.
  assert (Hcat : concat (fst (batches bs [] (records_from w 0 rows))) ++ batch s1 =
                 records_from w 0 rows).
  { transitivity (concat (chunks (Nat.max 1 bs) (records_from w 0 rows)));
      [|apply chunks_concat; lia].
    rewrite <- Hch. rewrite concat_app. f_equal.
    destruct (batch s1); simpl; [reflexivity | now rewrite app_nil_r]. }
  assert (Hrc : row_count s2 = length rows).
  { rewrite R2, R1, <- length_app, Hcat. apply records_from_length. }
  assert (Htab : st_table (db s2) = w_table w ++ records_from w 0 rows).
  { rewrite T2, T1, <- app_assoc, Hcat. reflexivity. }
  eexists. split.
  - unfold import_data_with, catch. rewrite bind_run.
    unfold import_body.
    rewrite (bind_ok _ _ _ _ _ (connect_ok _ Hc)).
    rewrite bind_print, bind_print.
    rewrite (bind_ok _ _ _ _ _ (open_csv_ok _ _ Hf)).
    fold s0. rewrite (bind_ok _ _ _ _ _ Hl).
    rewrite (bind_ok _ _ _ _ _ Hr).
    rewrite bind_print, bind_gets, bind_print, bind_gets, bind_print.
    rewrite (bind_ok _ _ _ _ _ (select_count_no_fault _)).
    rewrite bind_print. unfold emit, modify. reflexivity.
  - simpl. rewrite !flushes_app. simpl. rewrite !app_nil_r.
    rewrite F2, F1, E2, E1, Hrc, Htab, P2, app_nil_r. simpl.
    split; [rewrite <- Hch; reflexivity|].
    repeat split; trivial.
    exists (trace s2). unfold summary. rewrite <- !app_assoc, length_app, records_from_length.
    reflexivity.
Qed.

End NoFault.

(** C6.  In a run that meets no error, the rows sent to storage are the
    records of the input rows, in input order, cut into batches: every
    flush but the last sends exactly the batch size (a size of 0 acts as
    1), and what is left when the input ends, if anything, is sent by a
    last flush.  The total that is reported is the number of input rows,
    all of which transform.  With a batch size of 2 and five rows there are
    three flushes, of 2, 2 and 1 records. *)
Theorem batch_boundaries (w : world) (bs : nat) (rows : list (gmap string pyval)) :
  w_connect w = None ->
  w_csv w = Some rows ->
  (forall n, w_fault w n = None) ->
  exists s, import_data_with w bs (initial w) = (Ok None, s) /\
    flushes (trace s) = chunks (Nat.max 1 bs) (records_from w 0 rows) /\
    concat (flushes (trace s)) = records_from w 0 rows /\
    Forall (fun b => (0 < length b <= Nat.max 1 bs)%nat) (flushes (trace s)) /\
    (forall j b, flushes (trace s) !! j = Some b ->
                 (S j < length (flushes (trace s)))%nat ->
                 length b = Nat.max 1 bs) /\
    row_count s = length rows /\
    In (EPrint ("Total rows imported: " ++ str_of_nat (length rows))) (trace s) /\
    st_table (db s) = w_table w ++ records_from w 0 rows /\
    (bs = 2%nat -> length rows = 5%nat ->
     map length (flushes (trace s)) = [2; 2; 1]%nat).
Proof.
  intros Hc Hf Hn.
  destruct (import_no_fault w bs Hn rows Hc Hf) as (s & Hs & Hfl & Hrc & _ & Ht & tr & Htr).
  assert (Hpos : (0 < Nat.max 1 bs)%nat) by lia.
  exists s. split; [exact Hs|]. split; [exact Hfl|].
  rewrite Hfl.
  split; [now apply chunks_concat|].
  split; [now apply chunks_sizes|].
  split; [now apply chunks_sizes|].
  split; [exact Hrc|].
  split.
  { rewrite Htr. apply in_or_app. right. simpl. auto. }
  split; [exact Ht|].
  intros -> Hlen.
  destruct rows as [|r1 [|r2 [|r3 [|r4 [|r5 [|r6 rows]]]]]]; try discriminate Hlen.
  reflexivity.
Qed.

Lemma batch_boundaries_witness :
  exists s, import_data_with a_quiet_world 2 (initial a_quiet_world) = (Ok None, s) /\
    map length (flushes (trace s)) = [2; 2; 1]%nat /\
    row_count s = 5%nat.
Proof.
  destruct (batch_boundaries a_quiet_world 2
              [the_example_row; the_example_row; the_example_row;
               the_example_row; the_example_row]
              eq_refl eq_refl (fun _ => eq_refl))
    as (s & Hs & _ & _ & _ & _ & Hrc & _ & _ & H5).
  exists s. split; [exact Hs|]. split; [apply H5; reflexivity | exact Hrc].
Defined.

(** ** The command line *)

(** C9, as stated, fails: the answer [Y] is other than [y], and the import
    runs. *)
Lemma capital_answer_imports :
  w_response a_capital_world <> "y" /\
  existsb touches_data (o_trace (run a_capital_world)) = true /\
  o_status (run a_capital_world) = 0 /\
  length (o_table (run a_capital_world)) = 5%nat.
Proof.
  split; [discriminate|]. vm_compute. auto.
Qed.

(** C9, amended.  When the CSV file is missing the script prints the error
    and leaves with status 1, and no connection is opened.  Otherwise it
    asks for confirmation, and on any answer but [y] and [Y] it prints that
    the import is cancelled and leaves with status 0; nothing is read or
    stored. *)
Theorem cli_exits (w : world) (bs : nat) :
  (w_exists w = false ->
   run_with w bs =
     mk_outcome
       (header ++
        [ EPrint "Error: CSV file 'online_retail_II.csv' not found!";
          EPrint "Please ensure the file is in the current directory." ])
       1 (w_table w)) /\
  (w_exists w = true -> w_response w <> "y" -> w_response w <> "Y" ->
   run_with w bs =
     mk_outcome
       (header ++
        [ EPrompt "Import data from 'online_retail_II.csv'? (y/n): ";
          EPrint "Import cancelled." ])
       0 (w_table w)) /\
  ((w_exists w = false \/ (w_response w <> "y" /\ w_response w <> "Y")) ->
   existsb touches_data (o_trace (run_with w bs)) = false).
Proof.
  assert (H1 : w_exists w = false ->
     run_with w bs =
     mk_outcome
       (header ++
        [ EPrint "Error: CSV file 'online_retail_II.csv' not found!";
          EPrint "Please ensure the file is in the current directory." ])
       1 (w_table w)).
  { intros He. unfold run_with, main_with.
    rewrite !bind_print, He. reflexivity. }
  assert (H2 : w_exists w = true -> w_response w <> "y" -> w_response w <> "Y" ->
     run_with w bs =
     mk_outcome
       (header ++
        [ EPrompt "Import data from 'online_retail_II.csv'? (y/n): ";
          EPrint "Import cancelled." ])
       0 (w_table w)).
  { intros He Hy HY. unfold run_with, main_with.
    rewrite !bind_print, He. change (negb true) with false. cbv iota.
    rewrite bind_emit.
    destruct (String.eqb_spec (Text.lower (w_response w)) "y") as [E | E].
    - apply lower_y in E as [E | E]; contradiction.
    - reflexivity. }
  split; [exact H1|]. split; [exact H2|].
  intros [He | [Hy HY]].
  - rewrite (H1 He). reflexivity.
  - destruct (w_exists w) eqn:He.
    + rewrite (H2 eq_refl Hy HY). reflexivity.
    + rewrite (H1 eq_refl). reflexivity.
Qed.

Lemma cli_exits_witness :
  o_status (run a_world_without_file) = 1 /\
  o_status (run a_declining_world) = 0 /\
  o_table (run a_declining_world) = [].
Proof.
  pose proof (proj1 (cli_exits a_world_without_file BATCH_SIZE) eq_refl) as H1.
  assert (Hy : w_response a_declining_world <> "y") by discriminate.
  assert (HY : w_response a_declining_world <> "Y") by discriminate.
  pose proof (proj1 (proj2 (cli_exits a_declining_world BATCH_SIZE)) eq_refl Hy HY) as H2.
  unfold run. rewrite H1, H2. auto.
Defined.

(** ** Storage errors *)

Section FinalFlush.

Variable w : world.
Variable bs : nat.

(** While the batch stays short of [bs] the loop only collects records;
    no statement is sent. *)
Lemma loop_collects rows : forall i s,
  (length (batch s) + length rows < bs)%nat ->
  loop w bs i rows s = (Ok tt, set_batch (batch s ++ records_from w i rows) s).
Proof.
  induction rows as [|row rows IH]; intros i s Hlen; simpl.
  - rewrite app_nil_r. now destruct s.
  - rewrite bind_run, process_row_run, row_body_run.
    rewrite flush_full_skip by (simpl; rewrite length_app; simpl in *; lia).
    rewrite IH by (simpl; rewrite length_app; simpl in *; lia).
    simpl. now rewrite <- app_assoc.
Qed.

Lemma flush_rest_fault s m :
  batch s <> [] ->
  w_fault w (st_calls (db s)) = Some m ->
  flush_rest w s =
  (Raise (Exn MySQLError m),
   mk_state (batch s) (row_count s) (error_count s)
     (trace s ++ [EExecutemany (batch s)])
     (mk_storage (S (st_calls (db s))) (st_pending (db s)) (st_table (db s)))).
Proof.
  intros Hb Hm. unfold flush_rest. rewrite bind_gets.
  destruct (batch s) as [|r rs] eqn:E; [now destruct Hb|].
  unfold executemany. rewrite bind_run, (statement_fault _ _ _ _ m) by exact Hm.
  rewrite E. reflexivity.
Qed.

(** An error met by the flush after the loop ends the run: the message is
    printed as a database error, the status is 1, the statement is not
    sent again, and the table is as it was before. *)
Lemma final_flush_error_is_fatal rows m :
  w_connect w = None ->
  w_csv w = Some rows ->
  rows <> [] ->
  (length rows < bs)%nat ->
  w_fault w 0 = Some m ->
  exists s, import_data_with w bs (initial w) = (Ok (Some 1), s) /\
    trace s =
      [ EConnect;
        EPrint ("Connected to database: " ++ DB_DATABASE);
        EPrint ("Reading CSV file: " ++ CSV_FILE);
        EOpen CSV_FILE;
        EExecutemany (records_from w 0 rows);
        EPrint ("Database error: " ++ m) ] /\
    st_table (db s) = w_table w.
Proof.
  intros Hc Hf Hne Hlen Hm.
  assert (Hrec : records_from w 0 rows <> []).
  { destruct rows; [now destruct Hne | discriminate]. }
  eexists. split.
  - unfold import_data_with, catch. rewrite bind_run.
    unfold import_body.
    rewrite (bind_ok _ _ _ _ _ (connect_ok _ _ Hc)).
    rewrite bind_print, bind_print.
    rewrite (bind_ok _ _ _ _ _ (open_csv_ok _ _ _ Hf)).
    rewrite bind_run, loop_collects by (simpl; lia).
    rewrite bind_run, (flush_rest_fault _ m) by assumption.
    unfold import_handler. simpl exn_cls. cbv iota.
    rewrite bind_run, bind_print. reflexivity.
  - simpl. auto.
Qed.

(** What the handler of the inner [try] does with an error, whatever the
    row: one more error is counted, its message is printed while the
    count is at most 10, and the loop goes on.  The record of the row has
    joined the batch before the flush was tried, and stays there. *)
Lemma row_error_handling i row s e s' :
  row_body w bs i row s = (Raise e, s') ->
  exists s'', process_row w bs i row s = (Ok tt, s'') /\
    error_count s'' = (error_count s + 1)%nat /\
    trace s'' =
      trace s' ++
      (if (error_count s'' <=? 10)%nat
       then [EPrint ("Error processing row: " ++ exn_msg e)] else []) /\
    batch s'' = batch s ++ [record_of (w_clock w i) row].
Proof.
  intros H. rewrite process_row_run, H.
  rewrite row_body_run in H.
  apply flush_full_raise in H as (_ & _ & _ & Hb & _ & He & _).
  exists (handled e s'). split; [reflexivity|].
  simpl. rewrite He, Hb. simpl.
  split; [reflexivity|]. split; [|reflexivity].
  destruct (error_count s + 1 <=? 10)%nat; [reflexivity | now rewrite app_nil_r].
Qed.

(** A flush that is due sends its [executemany], whatever comes next. *)
Lemma flush_full_sends s :
  (bs <= length (batch s))%nat ->
  exists r s' tr, flush_full w bs s = (r, s') /\
    trace s' = trace s ++ EExecutemany (batch s) :: tr.
Proof.
  intros Hb.
  destruct (w_fault w (st_calls (db s))) as [m |] eqn:H0.
  - unfold flush_full. rewrite bind_gets.
    destruct (Nat.leb_spec bs (length (batch s))); [|lia].
    unfold executemany. rewrite bind_run, (statement_fault _ _ _ _ m) by exact H0.
    do 2 eexists. exists []. split; reflexivity.
  - destruct (w_fault w (S (st_calls (db s)))) as [m |] eqn:H1.
    + unfold flush_full. rewrite bind_gets.
      destruct (Nat.leb_spec bs (length (batch s))); [|lia].
      unfold executemany, commit.
      rewrite bind_run, (statement_ok _ _ _ _ H0), bind_run.
      match goal with |- context [statement w ECommit ?f ?t] => set (s1 := t) end.
      rewrite (statement_fault _ ECommit _ s1 m) by exact H1.
      do 2 eexists. exists [ECommit]. split; [reflexivity|].
      simpl. now rewrite <- app_assoc.
    + rewrite flush_full_ok by assumption.
      do 2 eexists. eexists. split; [reflexivity|]. reflexivity.
Qed.

(** After an error of the in-loop flush the batch is still full, so the
    next row sends it again, with the record of that row added. *)
Lemma swallowed_flush_is_retried i row row' s e s1 :
  row_body w bs i row s = (Raise e, s1) ->
  exists r s3 tr,
    row_body w bs (S i) row' (handled e s1) = (r, s3) /\
    trace s3 =
      trace (handled e s1) ++
      EExecutemany (batch s ++ [record_of (w_clock w i) row;
                                record_of (w_clock w (S i)) row']) :: tr.
Proof.
  intros H. rewrite row_body_run in H.
  apply flush_full_raise in H as (Hb & _ & _ & Hbatch & _).
  simpl in Hb, Hbatch.
  rewrite row_body_run.
  match goal with |- context [flush_full w bs ?t] => set (s2 := t) end.
  assert (Hb2 : batch s2 = batch s ++ [record_of (w_clock w i) row;
                                       record_of (w_clock w (S i)) row']).
  { subst s2. simpl. rewrite Hbatch, <- app_assoc. reflexivity. }
  destruct (flush_full_sends s2) as (r & s3 & tr & Hr & Ht).
  { rewrite Hb2, length_app. rewrite length_app in Hb. simpl in *. lia. }
  exists r, s3, tr. split; [exact Hr|].
  rewrite Ht, Hb2. reflexivity.
Qed.

End FinalFlush.

(** C1 at a failing input.  The flush of the first full batch meets a
    storage error.  The error does not reach the handlers of the outer
    [try]: it is printed as a row error, the 1000 rows are sent again with
    the next row, and the script ends with status 0. *)
Theorem flush_error_is_swallowed :
  let o := run a_faulty_world in
  o_status o = 0 /\
  map length (flushes (o_trace o)) = [1000; 1001]%nat /\
  existsb (is_print "Error processing row: Lost connection to MySQL server") (o_trace o) = true /\
  existsb (is_print "Database error: Lost connection to MySQL server") (o_trace o) = false /\
  existsb (is_print "Errors encountered: 1") (o_trace o) = true /\
  length (o_table o) = 1001%nat.
Proof. vm_compute. repeat split; reflexivity. Qed.

